(** * snakeplane: the plugin factory's lifecycle wrappers

    A shallow embedding of [plugin_factory.py].  The factory wraps each
    user function in an entry point that the engine calls
    ([wrap_pi_init], [wrap_push_all_records], [wrap_ii_init], ...), and
    [process_data] installs one of three record-flow strategies
    ([batch_ii_close], [stream_ii_push_record],
    [source_pi_push_all_records]).

    Python mutates the plugin object in place; here every function takes
    the plugin and returns the updated plugin.  Calls whose effect lives
    outside [plugin_factory.py] (user callbacks, the logger, the output
    anchors) append an [Event] to the plugin's [trace], in call order. *)

From Stdlib Require Import ZArith.
From stdpp Require Import base list strings.

Open Scope string_scope.
Open Scope list_scope.

(** ** Data *)

(** An incoming record is opaque to the factory; a token stands for it. *)
Definition InRecord := string.

(** [record_info_in]: field names with their types. *)
Definition RecordInfo := list (string * string).

(** The value under the ["Configuration"] key of the parsed document: the
    tool's settings, in document order.  The factory stores it and hands
    it to the user; it never looks inside. *)
Definition Config := list (string * string).

(** Python exceptions that the wrappers raise or let through. *)
Inductive Exn :=
| ExpatError
| KeyError (key : string)
| AssertionError (msg : string).

(** The result of a call that may raise. *)
Inductive Outcome (A : Type) :=
| Return (a : A)
| Raise (e : Exn).
Arguments Return {A} a.
Arguments Raise {A} e.

(** The buffers the input manager shows to a user function: one entry
    per registered interface, in registration order. *)
Definition InputView := list (string * list InRecord).

Inductive Event :=
| EvSaveOutputAnchorRefs
| EvUserInit
| EvUserAddIncoming (str_type str_name : string)
| EvUserAddOutgoing (str_name : string)
| EvUserIiInit (interface : nat) (record_info_in : RecordInfo)
| EvUserProgress (interface : nat) (d_percentage : Z)
| EvUserPushAllRecords (n_record_limit : Z)
| EvUpdateProgress (d_percentage : Z)
| EvBuildMetadata
| EvProcessData (view : InputView)
| EvPushMetadata (anchor : string)
| EvPushAllOutputRecords
| EvUserClose
| EvCloseOutput (anchor : string)
| EvLogError (msg : string).

(** [AyxPluginInterface]: one object per incoming connection. *)
Record Interface := mkInterface {
  anchor_name : string;
  record_info_in : option RecordInfo;
  anchor_metadata : option RecordInfo;
  ii_initialized : bool;
  completed : bool;
  record_list_in : list InRecord }.

Record OutputAnchor := mkOutputAnchor {
  closed : bool }.

(** [AyxPlugin].  An interface refers to its parent plugin and the
    engine holds the interface objects; here an interface is named by
    its position in [interfaces].  [output_anchors] is a dict iterated
    with [.items()], kept as an association list in insertion order. *)
Record Plugin := mkPlugin {
  workflow_config : option Config;
  initialized : bool;
  update_only_mode : bool;
  required_input_names : list string;
  interfaces : list Interface;
  output_anchors : list (string * OutputAnchor);
  trace : list Event }.

(** *** Field updates *)

Definition set_workflow_config (c : Config) (p : Plugin) : Plugin :=
  mkPlugin (Some c) (initialized p) (update_only_mode p)
    (required_input_names p) (interfaces p) (output_anchors p) (trace p).

Definition set_initialized (b : bool) (p : Plugin) : Plugin :=
  mkPlugin (workflow_config p) b (update_only_mode p)
    (required_input_names p) (interfaces p) (output_anchors p) (trace p).

Definition set_interfaces (l : list Interface) (p : Plugin) : Plugin :=
  mkPlugin (workflow_config p) (initialized p) (update_only_mode p)
    (required_input_names p) l (output_anchors p) (trace p).

Definition set_output_anchors (l : list (string * OutputAnchor))
    (p : Plugin) : Plugin :=
  mkPlugin (workflow_config p) (initialized p) (update_only_mode p)
    (required_input_names p) (interfaces p) l (trace p).

Definition emit_all (es : list Event) (p : Plugin) : Plugin :=
  mkPlugin (workflow_config p) (initialized p) (update_only_mode p)
    (required_input_names p) (interfaces p) (output_anchors p)
    (trace p ++ es).

Definition emit (e : Event) (p : Plugin) : Plugin := emit_all [e] p.

Definition set_ii_initialized (b : bool) (c : Interface) : Interface :=
  mkInterface (anchor_name c) (record_info_in c) (anchor_metadata c) b
    (completed c) (record_list_in c).

Definition set_completed (b : bool) (c : Interface) : Interface :=
  mkInterface (anchor_name c) (record_info_in c) (anchor_metadata c)
    (ii_initialized c) b (record_list_in c).

Definition set_record_list_in (l : list InRecord) (c : Interface)
    : Interface :=
  mkInterface (anchor_name c) (record_info_in c) (anchor_metadata c)
    (ii_initialized c) (completed c) l.

Definition set_record_info_in (ri : RecordInfo) (c : Interface) : Interface :=
  mkInterface (anchor_name c) (Some ri) (anchor_metadata c)
    (ii_initialized c) (completed c) (record_list_in c).

Definition set_anchor_metadata (md : RecordInfo) (c : Interface) : Interface :=
  mkInterface (anchor_name c) (record_info_in c) (Some md)
    (ii_initialized c) (completed c) (record_list_in c).

(** Update the interface object behind handle [i]. *)
Definition on_interface (f : Interface -> Interface) (i : nat) (p : Plugin)
    : Plugin :=
  set_interfaces (alter f i (interfaces p)) p.

(** ** Helper classes and utilities used by the factory *)

(** Modelled from the spec: [interface_utilities.get_column_metadata] is
    not part of the source.  The spec only says that interface init
    captures the input schema, so the column metadata is the schema. *)
Definition get_column_metadata (ri : RecordInfo) : RecordInfo := ri.

(** Modelled from the spec: [AyxPlugin.save_output_anchor_refs] is not
    part of the source and the spec does not describe it; the call is
    recorded and changes nothing else. *)
Definition save_output_anchor_refs (p : Plugin) : Plugin :=
  emit EvSaveOutputAnchorRefs p.

(** Modelled from the spec: the constructor of [AyxPluginInterface] is
    not part of the source.  A ConnectionInterface is created with no
    schema, not initialized, not completed, and an empty accumulation
    buffer. *)
Definition new_interface (str_type : string) : Interface :=
  mkInterface str_type None None false false [].

(** Modelled from the spec: [AyxPlugin.save_interface] is not part of
    the source; the new interface is registered after the existing
    ones. *)
Definition save_interface (c : Interface) (p : Plugin) : Plugin :=
  set_interfaces (interfaces p ++ [c]) p.

(** Modelled from the spec: the property [AyxPlugin.all_inputs_completed]
    is not part of the source.  "allInputsCompleted holds iff every
    currently-registered interface has completed = true". *)
Definition all_inputs_completed (p : Plugin) : bool :=
  forallb completed (interfaces p).

(** Modelled from the spec: the property
    [AyxPlugin.all_required_inputs_initialized] is not part of the
    source.  "Every required interface has now negotiated metadata": each
    interface on an anchor named in [required_input_names] is
    initialized. *)
Definition all_required_inputs_initialized (p : Plugin) : bool :=
  forallb
    (fun c => implb (bool_decide (anchor_name c ∈ required_input_names p))
                    (ii_initialized c))
    (interfaces p).

(** Modelled from the spec: [AyxPlugin.clear_accumulated_records] is not
    part of the source.  It "clears accumulation buffers across all
    interfaces of the node". *)
Definition clear_accumulated_records (p : Plugin) : Plugin :=
  set_interfaces (map (set_record_list_in []) (interfaces p)) p.

(** Modelled from the spec: [AyxPluginInterface.accumulate_record] is not
    part of the source.  It appends the record to the interface's
    accumulation buffer. *)
Definition accumulate_record (i : nat) (in_record : InRecord) (p : Plugin)
    : Plugin :=
  on_interface
    (fun c => set_record_list_in (record_list_in c ++ [in_record]) c) i p.

(** Modelled from the spec: the output anchor's [push_metadata] is not
    part of the source; the push of the negotiated schema to the anchor
    is recorded. *)
Definition push_metadata (anchor : string) (p : Plugin) : Plugin :=
  emit (EvPushMetadata anchor) p.

(** Modelled from the spec: [AyxPlugin.push_all_output_records] is not
    part of the source; the flush of the buffered output records is
    recorded. *)
Definition push_all_output_records (p : Plugin) : Plugin :=
  emit EvPushAllOutputRecords p.

(** Modelled from the spec: [AyxPlugin.close_all_outputs] is not part of
    the source.  It closes every output anchor, in dict order. *)
Definition close_all_outputs (p : Plugin) : Plugin :=
  set_output_anchors
    (map (fun na => (fst na, mkOutputAnchor true)) (output_anchors p))
    (emit_all (map (fun na => EvCloseOutput (fst na)) (output_anchors p)) p).

(** Modelled from the spec: [AyxPlugin.update_progress] is not part of
    the source; the fraction is forwarded to node-level progress
    reporting.  The engine passes a float that is only forwarded, so an
    integer stands for it. *)
Definition update_progress (d_percentage : Z) (p : Plugin) : Plugin :=
  emit (EvUpdateProgress d_percentage) p.

(** What the input manager exposes of the accumulated records. *)
Definition input_view (p : Plugin) : InputView :=
  map (fun c => (anchor_name c, record_list_in c)) (interfaces p).

(** [for _, anchor in plugin._state_vars.output_anchors.items():
       anchor.push_metadata(plugin)] *)
Fixpoint push_metadata_items (items : list (string * OutputAnchor))
    (p : Plugin) : Plugin :=
  match items with
  | [] => p
  | (name, _) :: rest => push_metadata_items rest (push_metadata name p)
  end.

(** ** The wrappers built by [PluginFactory] *)

(** The user's metadata function, [self._build_metadata]. *)
Definition Hook := Plugin -> Plugin.

Section Wrappers.

(** [xmltodict.parse], a third-party library: [None] when it raises on
    a malformed document, else the top-level dict. *)
Variable xmltodict_parse : string -> option (list (string * Config)).

(** [d[key]] on a dict. *)
Fixpoint getitem (key : string) (d : list (string * Config))
    : option Config :=
  match d with
  | [] => None
  | (k, v) :: rest => if bool_decide (k = key) then Some v
                      else getitem key rest
  end.

(** [val] is modelled by its truth value: [None] counts as [false]. *)
Definition wrap_pi_init (func : Plugin -> Plugin * bool)
    (current_plugin : Plugin) (config_xml : string)
    : Plugin * Outcome bool :=
  let current_plugin := save_output_anchor_refs current_plugin in
  match xmltodict_parse config_xml with
  | None => (current_plugin, Raise ExpatError)
  | Some doc =>
      match getitem "Configuration" doc with
      | None => (current_plugin, Raise (KeyError "Configuration"))
      | Some cfg =>
          let current_plugin := set_workflow_config cfg current_plugin in
          let '(current_plugin, val) := func current_plugin in
          (set_initialized val current_plugin, Return val)
      end
  end.

End Wrappers.

(** Returns the updated plugin and the handle of the new interface. *)
Definition wrap_pi_add_incoming_connection
    (func : Plugin -> string -> string -> Plugin)
    (current_plugin : Plugin) (str_type str_name : string) : Plugin * nat :=
  let current_plugin := func current_plugin str_type str_name in
  let interface := new_interface str_type in
  (save_interface interface current_plugin,
   length (interfaces current_plugin)).

(** The value that [func] returns is dropped by the wrapper. *)
Definition wrap_push_all_records (func : Plugin -> Z -> Plugin * bool)
    (current_plugin : Plugin) (n_record_limit : Z) : Plugin * Outcome bool :=
  if update_only_mode current_plugin then (current_plugin, Return true)
  else if Nat.eqb (length (required_input_names current_plugin)) 0 then
    (fst (func current_plugin n_record_limit), Return true)
  else
    let err_str := "Missing Incoming Connection(s)" in
    (emit (EvLogError err_str) current_plugin,
     Raise (AssertionError err_str)).

Definition wrap_pi_add_outgoing_connection
    (func : Plugin -> string -> Plugin * bool)
    (current_plugin : Plugin) (str_name : string) : Plugin * bool :=
  func current_plugin str_name.

Definition wrap_pi_close (func : Plugin -> Plugin)
    (current_plugin : Plugin) (b_has_errors : bool) : Plugin :=
  if all_inputs_completed current_plugin then
    close_all_outputs (func current_plugin)
  else current_plugin.

Definition wrap_ii_init (_build_metadata : Hook)
    (func : Plugin -> nat -> RecordInfo -> Plugin * bool)
    (current_plugin : Plugin) (current_interface : nat)
    (record_info : RecordInfo) : Plugin * bool :=
  let current_plugin :=
    on_interface (set_record_info_in record_info) current_interface
      current_plugin in
  let current_plugin :=
    on_interface (set_ii_initialized true) current_interface current_plugin in
  let metadata := get_column_metadata record_info in
  let current_plugin :=
    on_interface (set_anchor_metadata metadata) current_interface
      current_plugin in
  let '(current_plugin, init_success) :=
    func current_plugin current_interface record_info in
  if negb init_success then
    let current_plugin := set_initialized false current_plugin in
    (on_interface (set_ii_initialized false) current_interface current_plugin,
     false)
  else if update_only_mode current_plugin
          && all_required_inputs_initialized current_plugin then
    let current_plugin := _build_metadata current_plugin in
    (push_metadata_items (output_anchors current_plugin) current_plugin, true)
  else (current_plugin, true).

Definition wrap_ii_push_record (func : Plugin -> nat -> InRecord -> Plugin)
    (current_plugin : Plugin) (current_interface : nat)
    (in_record : InRecord) : Plugin * bool :=
  if negb (initialized current_plugin) || update_only_mode current_plugin
  then (current_plugin, false)
  else (func current_plugin current_interface in_record, true).

Definition wrap_ii_update_progress (func : Plugin -> nat -> Z -> Plugin)
    (current_plugin : Plugin) (current_interface : nat) (d_percentage : Z)
    : Plugin :=
  let current_plugin := update_progress d_percentage current_plugin in
  func current_plugin current_interface d_percentage.

Definition wrap_ii_close (func : Plugin -> Plugin)
    (current_plugin : Plugin) (current_interface : nat) : Plugin :=
  if update_only_mode current_plugin then current_plugin
  else
    let current_plugin :=
      on_interface (set_completed true) current_interface current_plugin in
    func current_plugin.

(** ** The strategies installed by [process_data] *)

Definition build_metadata (_build_metadata : Hook) (plugin : Plugin)
    : Plugin :=
  if negb (update_only_mode plugin) then _build_metadata plugin else plugin.

Definition batch_ii_close (_build_metadata : Hook) (func : Plugin -> Plugin)
    (plugin : Plugin) : Plugin :=
  if negb (initialized plugin) then plugin
  else if all_inputs_completed plugin then
    let plugin := build_metadata _build_metadata plugin in
    let plugin := func plugin in
    let plugin := push_metadata_items (output_anchors plugin) plugin in
    push_all_output_records plugin
  else plugin.

Definition stream_ii_push_record (_build_metadata : Hook)
    (func : Plugin -> Plugin) (plugin : Plugin) (current_interface : nat)
    (in_record : InRecord) : Plugin :=
  if negb (initialized plugin) then plugin
  else
    let plugin := clear_accumulated_records plugin in
    let plugin := accumulate_record current_interface in_record plugin in
    let plugin := build_metadata _build_metadata plugin in
    let plugin := func plugin in
    let plugin := push_metadata_items (output_anchors plugin) plugin in
    push_all_output_records plugin.

(** Returns [None]: truth value [false]. *)
Definition source_pi_push_all_records (_build_metadata : Hook)
    (func : Plugin -> Plugin) (plugin : Plugin) (n_record_limit : Z)
    : Plugin * bool :=
  let plugin := build_metadata _build_metadata plugin in
  let plugin := func plugin in
  let plugin := push_metadata_items (output_anchors plugin) plugin in
  (push_all_output_records plugin, false).

(** ** The factory *)

(** The user functions registered so far.  A strategy closure reads
    [self._build_metadata] when it runs, not when it is registered, so
    the slots that [process_data] fills take the metadata function as an
    argument. *)
Record Factory := mkFactory {
  pi_init_func : Plugin -> Plugin * bool;
  pi_add_incoming_connection_func : Plugin -> string -> string -> Plugin;
  pi_push_all_records_func : Hook -> Plugin -> Z -> Plugin * bool;
  pi_add_outgoing_connection_func : Plugin -> string -> Plugin * bool;
  pi_close_func : Plugin -> Plugin;
  ii_init_func : Plugin -> nat -> RecordInfo -> Plugin * bool;
  ii_push_record_func : Hook -> Plugin -> nat -> InRecord -> Plugin;
  ii_update_progress_func : Plugin -> nat -> Z -> Plugin;
  ii_close_func : Hook -> Plugin -> Plugin;
  self_build_metadata : Hook }.

(** [PluginFactory.__init__]: every slot starts with its default.
    [noop] returns [None], truth value [false]. *)
Definition new_factory : Factory :=
  mkFactory
    (fun p => (p, false))
    (fun p _ _ => p)
    (fun _ p _ => (p, false))
    (fun p _ => (p, true))
    (fun p => p)
    (fun p _ _ => (p, true))
    (fun _ p _ _ => p)
    (fun p _ _ => p)
    (fun _ p => p)
    (fun p => p).

Definition build_pi_init (func : Plugin -> Plugin * bool) (F : Factory)
    : Factory :=
  mkFactory func (pi_add_incoming_connection_func F)
    (pi_push_all_records_func F) (pi_add_outgoing_connection_func F)
    (pi_close_func F) (ii_init_func F) (ii_push_record_func F)
    (ii_update_progress_func F) (ii_close_func F) (self_build_metadata F).

Definition build_pi_add_incoming_connection
    (func : Plugin -> string -> string -> Plugin) (F : Factory) : Factory :=
  mkFactory (pi_init_func F) func
    (pi_push_all_records_func F) (pi_add_outgoing_connection_func F)
    (pi_close_func F) (ii_init_func F) (ii_push_record_func F)
    (ii_update_progress_func F) (ii_close_func F) (self_build_metadata F).

Definition build_pi_push_all_records
    (func : Hook -> Plugin -> Z -> Plugin * bool) (F : Factory) : Factory :=
  mkFactory (pi_init_func F) (pi_add_incoming_connection_func F)
    func (pi_add_outgoing_connection_func F)
    (pi_close_func F) (ii_init_func F) (ii_push_record_func F)
    (ii_update_progress_func F) (ii_close_func F) (self_build_metadata F).

Definition build_pi_add_outgoing_connection
    (func : Plugin -> string -> Plugin * bool) (F : Factory) : Factory :=
  mkFactory (pi_init_func F) (pi_add_incoming_connection_func F)
    (pi_push_all_records_func F) func
    (pi_close_func F) (ii_init_func F) (ii_push_record_func F)
    (ii_update_progress_func F) (ii_close_func F) (self_build_metadata F).

Definition build_pi_close (func : Plugin -> Plugin) (F : Factory) : Factory :=
  mkFactory (pi_init_func F) (pi_add_incoming_connection_func F)
    (pi_push_all_records_func F) (pi_add_outgoing_connection_func F)
    func (ii_init_func F) (ii_push_record_func F)
    (ii_update_progress_func F) (ii_close_func F) (self_build_metadata F).

Definition build_ii_init
    (func : Plugin -> nat -> RecordInfo -> Plugin * bool) (F : Factory)
    : Factory :=
  mkFactory (pi_init_func F) (pi_add_incoming_connection_func F)
    (pi_push_all_records_func F) (pi_add_outgoing_connection_func F)
    (pi_close_func F) func (ii_push_record_func F)
    (ii_update_progress_func F) (ii_close_func F) (self_build_metadata F).

Definition build_ii_push_record
    (func : Hook -> Plugin -> nat -> InRecord -> Plugin) (F : Factory)
    : Factory :=
  mkFactory (pi_init_func F) (pi_add_incoming_connection_func F)
    (pi_push_all_records_func F) (pi_add_outgoing_connection_func F)
    (pi_close_func F) (ii_init_func F) func
    (ii_update_progress_func F) (ii_close_func F) (self_build_metadata F).

Definition build_ii_update_progress
    (func : Plugin -> nat -> Z -> Plugin) (F : Factory) : Factory :=
  mkFactory (pi_init_func F) (pi_add_incoming_connection_func F)
    (pi_push_all_records_func F) (pi_add_outgoing_connection_func F)
    (pi_close_func F) (ii_init_func F) (ii_push_record_func F)
    func (ii_close_func F) (self_build_metadata F).

Definition build_ii_close (func : Hook -> Plugin -> Plugin) (F : Factory)
    : Factory :=
  mkFactory (pi_init_func F) (pi_add_incoming_connection_func F)
    (pi_push_all_records_func F) (pi_add_outgoing_connection_func F)
    (pi_close_func F) (ii_init_func F) (ii_push_record_func F)
    (ii_update_progress_func F) func (self_build_metadata F).

(** The method [PluginFactory.build_metadata]; the name [build_metadata]
    is kept for the guarded procedure inside [process_data]. *)
Definition set_build_metadata (func : Hook) (F : Factory) : Factory :=
  mkFactory (pi_init_func F) (pi_add_incoming_connection_func F)
    (pi_push_all_records_func F) (pi_add_outgoing_connection_func F)
    (pi_close_func F) (ii_init_func F) (ii_push_record_func F)
    (ii_update_progress_func F) (ii_close_func F) func.

(** [wrap_init] hands the user the configuration, the user data and the
    logger of the plugin. *)
Definition initialize_plugin (func : Plugin -> Plugin * bool) (F : Factory)
    : Factory :=
  build_pi_init (fun current_plugin => func current_plugin) F.

(** The branch of [process_data] that [mode.lower()] selects; any other
    string raises [ValueError] while the plugin is being defined. *)
Inductive Mode := Batch | Stream | Source.

Definition process_data (mode : Mode) (func : Plugin -> Plugin)
    (F : Factory) : Factory :=
  match mode with
  | Batch =>
      build_ii_close (fun bm => batch_ii_close bm func)
        (build_ii_push_record
           (fun _ plugin interface in_record =>
              accumulate_record interface in_record plugin) F)
  | Stream =>
      build_ii_push_record (fun bm => stream_ii_push_record bm func) F
  | Source =>
      build_pi_push_all_records
        (fun bm => source_pi_push_all_records bm func) F
  end.

(** ** Entry points of the generated plugin *)

Section EntryPoints.

Variable xmltodict_parse : string -> option (list (string * Config)).
Variable F : Factory.

Definition pi_init := wrap_pi_init xmltodict_parse (pi_init_func F).
Definition pi_add_incoming_connection :=
  wrap_pi_add_incoming_connection (pi_add_incoming_connection_func F).
Definition pi_push_all_records :=
  wrap_push_all_records (pi_push_all_records_func F (self_build_metadata F)).
Definition pi_add_outgoing_connection :=
  wrap_pi_add_outgoing_connection (pi_add_outgoing_connection_func F).
Definition pi_close := wrap_pi_close (pi_close_func F).
Definition ii_init := wrap_ii_init (self_build_metadata F) (ii_init_func F).
Definition ii_push_record :=
  wrap_ii_push_record (ii_push_record_func F (self_build_metadata F)).
Definition ii_update_progress :=
  wrap_ii_update_progress (ii_update_progress_func F).
Definition ii_close := wrap_ii_close (ii_close_func F (self_build_metadata F)).

(** One call by the engine. *)
Inductive Call :=
| CallPiInit (config_xml : string)
| CallPiAddIncomingConnection (str_type str_name : string)
| CallPiPushAllRecords (n_record_limit : Z)
| CallPiAddOutgoingConnection (str_name : string)
| CallPiClose (b_has_errors : bool)
| CallIiInit (interface : nat) (record_info : RecordInfo)
| CallIiPushRecord (interface : nat) (in_record : InRecord)
| CallIiUpdateProgress (interface : nat) (d_percentage : Z)
| CallIiClose (interface : nat).

(** The plugin after the call; a call that raises leaves the plugin as
    it was when the exception was raised. *)
Definition step (p : Plugin) (c : Call) : Plugin :=
  match c with
  | CallPiInit config_xml => fst (pi_init p config_xml)
  | CallPiAddIncomingConnection str_type str_name =>
      fst (pi_add_incoming_connection p str_type str_name)
  | CallPiPushAllRecords n => fst (pi_push_all_records p n)
  | CallPiAddOutgoingConnection str_name =>
      fst (pi_add_outgoing_connection p str_name)
  | CallPiClose b => pi_close p b
  | CallIiInit i ri => fst (ii_init p i ri)
  | CallIiPushRecord i r => fst (ii_push_record p i r)
  | CallIiUpdateProgress i d => ii_update_progress p i d
  | CallIiClose i => ii_close p i
  end.

(** A run: the calls of the engine, in order. *)
Definition run (p : Plugin) (cs : list Call) : Plugin := foldl step p cs.

End EntryPoints.

(** ** User code *)

(** The user's functions are outside the factory.  A user function is
    recorded in the trace when it is called and, where the wrapper reads
    its result, answers from the plugin it is shown (the trace is part of
    it, so the answer may depend on everything that happened before).
    User functions leave the bookkeeping of the plugin alone. *)
Record UserCode := mkUserCode {
  init_result : Plugin -> bool;
  ii_init_result : Plugin -> nat -> RecordInfo -> bool;
  add_outgoing_result : Plugin -> string -> bool }.

Definition user_init (U : UserCode) (p : Plugin) : Plugin * bool :=
  (emit EvUserInit p, init_result U p).

Definition user_add_incoming (p : Plugin) (str_type str_name : string)
    : Plugin :=
  emit (EvUserAddIncoming str_type str_name) p.

Definition user_add_outgoing (U : UserCode) (p : Plugin) (str_name : string)
    : Plugin * bool :=
  (emit (EvUserAddOutgoing str_name) p, add_outgoing_result U p str_name).

Definition user_ii_init (U : UserCode) (p : Plugin) (i : nat)
    (ri : RecordInfo) : Plugin * bool :=
  (emit (EvUserIiInit i ri) p, ii_init_result U p i ri).

Definition user_progress (p : Plugin) (i : nat) (d : Z) : Plugin :=
  emit (EvUserProgress i d) p.

Definition user_close (p : Plugin) : Plugin := emit EvUserClose p.

Definition user_build_metadata : Hook := emit EvBuildMetadata.

(** The function decorated with [process_data]: it sees the records
    accumulated on every interface through the input manager. *)
Definition user_process_data (p : Plugin) : Plugin :=
  emit (EvProcessData (input_view p)) p.

(** A plugin definition that registers one user function of each kind and
    decorates [user_process_data] with [process_data(mode)]. *)
Definition user_factory (U : UserCode) (mode : Mode) : Factory :=
  process_data mode user_process_data
    (set_build_metadata user_build_metadata
       (build_pi_close user_close
          (build_ii_update_progress user_progress
             (build_ii_init (user_ii_init U)
                (build_pi_add_outgoing_connection (user_add_outgoing U)
                   (build_pi_add_incoming_connection user_add_incoming
                      (initialize_plugin (user_init U) new_factory))))))).

(** ** Observations on a trace *)

Definition is_process_data (e : Event) : bool :=
  match e with EvProcessData _ => true | _ => false end.

Definition is_build_metadata (e : Event) : bool :=
  match e with EvBuildMetadata => true | _ => false end.

Definition is_log_error (e : Event) : bool :=
  match e with EvLogError _ => true | _ => false end.

Definition count_events (f : Event -> bool) (p : Plugin) : nat :=
  length (List.filter f (trace p)).



(** Record flow on the first [n] interfaces: a record pushed, or a
    close. *)
Definition is_record_flow (n : nat) (c : Call) : bool :=
  match c with
  | CallIiPushRecord i _ | CallIiClose i => Nat.ltb i n
  | _ => false
  end.

(** The records pushed on interface [i] in a list of calls, in order. *)
Fixpoint pushed_on (i : nat) (cs : list Call) : list InRecord :=
  match cs with
  | [] => []
  | CallIiPushRecord j r :: rest =>
      if Nat.eqb i j then r :: pushed_on i rest else pushed_on i rest
  | _ :: rest => pushed_on i rest
  end.

(** The events of the loop over the output anchors. *)
Definition metadata_pushes (items : list (string * OutputAnchor))
    : list Event :=
  map (fun na => EvPushMetadata (fst na)) items.

(** What one firing of a strategy adds to the trace of plugin [q]; the
    metadata function is skipped in update-only mode. *)
Definition firing_events (q : Plugin) : list Event :=
  (if update_only_mode q then [] else [EvBuildMetadata])
  ++ [EvProcessData (input_view q)]
  ++ metadata_pushes (output_anchors q) ++ [EvPushAllOutputRecords].

(** No interface has been marked completed. *)
Definition no_input_completed (p : Plugin) : Prop :=
  Forall (fun c => completed c = false) (interfaces p).

(** A record pushed on some interface. *)
Definition is_push_record (c : Call) : bool :=
  match c with CallIiPushRecord _ _ => true | _ => false end.

(** ** Sample data *)

(** Modelled from the spec: the constructor of [AyxPlugin] is not part of
    the source.  The node is created once per run, not initialized, with
    no interface registered, its required input names and its output
    anchors taken from the tool's configuration file. *)
Definition new_plugin (update_only : bool) (required outputs : list string)
    : Plugin :=
  mkPlugin None false update_only required []
    (map (fun name => (name, mkOutputAnchor false)) outputs) [].

(** A stand-in for [xmltodict.parse] on the three documents used below:
    the empty payload is malformed, the other two have a single root. *)
Definition sample_parse (s : string) : option (list (string * Config)) :=
  if bool_decide (s = "<Configuration/>") then Some [("Configuration", [])]
  else if bool_decide (s = "<Settings/>") then Some [("Settings", [])]
  else None.

(** User code whose hooks all succeed. *)
Definition agreeable : UserCode :=
  mkUserCode (fun _ => true) (fun _ _ _ => true) (fun _ _ => true).

(** User code whose interface init hook rejects the schema of
    interface 0 and accepts the others. *)
Definition rejects_first : UserCode :=
  mkUserCode (fun _ => true)
    (fun _ i _ => negb (Nat.eqb i 0)) (fun _ _ => true).

(** A generation callback registered with [build_pi_push_all_records]
    that reports failure. *)
Definition failing_generator (_ : Hook) (p : Plugin) (n : Z)
    : Plugin * bool :=
  (emit (EvUserPushAllRecords n) p, false).

(** The engine's calls up to the point where two connections, on anchors
    [A] and [B], are registered and initialized. *)
Definition setup_two_inputs : list Call :=
  [CallPiInit "<Configuration/>";
   CallPiAddIncomingConnection "A" "#1";
   CallPiAddIncomingConnection "B" "#2";
   CallPiAddOutgoingConnection "Output";
   CallIiInit 0 [("x", "int64")];
   CallIiInit 1 [("y", "v_string")]].

(** ** Mode names *)

(** [str.lower()] on the letters [A] to [Z]; every other byte is kept.
    Python lowercases by Unicode, but no character outside ASCII
    lowercases to a letter of ["batch"], ["stream"] or ["source"], so the
    comparison below has the same outcome on every string. *)
Definition lower_ascii (c : Ascii.ascii) : Ascii.ascii :=
  let n := Ascii.nat_of_ascii c in
  if Nat.leb 65 n && Nat.leb n 90 then Ascii.ascii_of_nat (n + 32) else c.

Fixpoint lower (s : string) : string :=
  match s with
  | EmptyString => EmptyString
  | String c rest => String (lower_ascii c) (lower rest)
  end.

(** The decorator that [process_data(mode)] returns, applied to [func]:
    [None] when it raises [ValueError] for a mode that is none of
    'batch', 'stream', 'source'. *)
Definition decorator_process_data (mode : string) (func : Plugin -> Plugin)
    (F : Factory) : option Factory :=
  if bool_decide (lower mode = "batch") then Some (process_data Batch func F)
  else if bool_decide (lower mode = "stream")
  then Some (process_data Stream func F)
  else if bool_decide (lower mode = "source")
  then Some (process_data Source func F)
  else None.

(** ** More plugin definitions and observations *)

(** As [user_factory], for a user who never decorates a function with
    [initialize_plugin]: [pi_init] keeps the default [noop]. *)
Definition user_factory_no_init (U : UserCode) (mode : Mode) : Factory :=
  process_data mode user_process_data
    (set_build_metadata user_build_metadata
       (build_pi_close user_close
          (build_ii_update_progress user_progress
             (build_ii_init (user_ii_init U)
                (build_pi_add_outgoing_connection (user_add_outgoing U)
                   (build_pi_add_incoming_connection user_add_incoming
                      new_factory)))))).

(** The entry point in which [process_data(mode)] installs the call of
    the decorated function. *)
Definition call_site (mode : Mode) (c : Call) : bool :=
  match mode, c with
  | Batch, CallIiClose _ => true
  | Stream, CallIiPushRecord _ _ => true
  | Source, CallPiPushAllRecords _ => true
  | _, _ => false
  end.

(** The calls that never assign [initialized]: all but [pi_init] and
    [ii_init]. *)
Definition keeps_initialized (c : Call) : bool :=
  match c with
  | CallPiInit _ | CallIiInit _ _ => false
  | _ => true
  end.

Definition is_pi_close (c : Call) : bool :=
  match c with CallPiClose _ => true | _ => false end.

Definition is_add_incoming (c : Call) : bool :=
  match c with CallPiAddIncomingConnection _ _ => true | _ => false end.

(** Number of [ii_push_record] calls in a list of calls. *)
Definition count_push (cs : list Call) : nat :=
  length (List.filter is_push_record cs).

(** Every interface of [l] is still there in [l'], at the same position
    and related by [R]. *)
Definition interfaces_kept (R : Interface -> Interface -> Prop)
    (l l' : list Interface) : Prop :=
  forall j c, l !! j = Some c -> exists c', l' !! j = Some c' /\ R c c'.

(** Same anchor, and completed if it was. *)
Definition same_connection (c c' : Interface) : Prop :=
  anchor_name c' = anchor_name c
  /\ (completed c = true -> completed c' = true).

(** Same anchor, same buffer, same completion. *)
Definition untouched_data (c c' : Interface) : Prop :=
  anchor_name c' = anchor_name c
  /\ record_list_in c' = record_list_in c
  /\ completed c' = completed c.

(** * Properties *)

(** ** Traces *)

Lemma emit_all_nil p : emit_all [] p = p.
Proof. destruct p; unfold emit_all; simpl. by rewrite app_nil_r. Qed.

Lemma emit_all_emit_all es1 es2 p :
  emit_all es2 (emit_all es1 p) = emit_all (es1 ++ es2) p.
Proof. unfold emit_all; simpl. by rewrite app_assoc. Qed.

Lemma push_metadata_items_emit items p :
  push_metadata_items items p = emit_all (metadata_pushes items) p.
Proof.
  revert p. induction items as [|[name a] rest IH]; intros p; simpl.
  - by rewrite emit_all_nil.
  - rewrite IH. unfold push_metadata, emit. by rewrite emit_all_emit_all.
Qed.

Lemma filter_metadata_pushes_process items :
  List.filter is_process_data (metadata_pushes items) = [].
Proof. induction items as [|[? ?] ? IH]; simpl; auto. Qed.

Lemma filter_metadata_pushes_build items :
  List.filter is_build_metadata (metadata_pushes items) = [].
Proof. induction items as [|[? ?] ? IH]; simpl; auto. Qed.

(** ** Node-level wrappers *)

(** C1, as the code has it.  On a node with a non-empty set of required
    input names, [pi_push_all_records] checks update-only mode first: in
    that mode it returns [True] and touches nothing; otherwise it logs
    "Missing Incoming Connection(s)" at error level and raises the
    assertion error, and the user function is not called, whatever it
    is. *)
Theorem push_all_records_with_required_inputs
    (func : Plugin -> Z -> Plugin * bool) (p : Plugin) (n : Z) :
  required_input_names p <> [] ->
  wrap_push_all_records func p n
  = if update_only_mode p then (p, Return true)
    else (emit (EvLogError "Missing Incoming Connection(s)") p,
          Raise (AssertionError "Missing Incoming Connection(s)")).
Proof.
  intros Hreq. unfold wrap_push_all_records.
  destruct (update_only_mode p); [reflexivity|].
  destruct (required_input_names p) as [|name names]; [congruence|].
  reflexivity.
Qed.

Lemma push_all_records_with_required_inputs_witness :
  required_input_names (new_plugin false ["A"] ["Output"]) <> []
  /\ wrap_push_all_records (failing_generator user_build_metadata)
       (new_plugin false ["A"] ["Output"]) 10
     = (emit (EvLogError "Missing Incoming Connection(s)")
          (new_plugin false ["A"] ["Output"]),
        Raise (AssertionError "Missing Incoming Connection(s)")).
Proof.
  split; [discriminate|].
  apply (push_all_records_with_required_inputs
           (failing_generator user_build_metadata)
           (new_plugin false ["A"] ["Output"]) 10).
  discriminate.
Defined.

(** C1 as stated fails: in update-only mode a node that requires input
    [A] answers [pi_push_all_records] with [True], and nothing is
    logged. *)
Lemma push_all_records_update_only_succeeds :
  let p := new_plugin true ["A"] ["Output"] in
  required_input_names p <> []
  /\ pi_push_all_records (user_factory agreeable Batch) p 10
     = (p, Return true).
Proof. split; [discriminate | reflexivity]. Qed.

(** C9.  With update-only mode off and no required input name,
    [pi_push_all_records] runs the user function and returns [True]; the
    value the user function returned is not part of the answer. *)
Theorem push_all_records_ignores_callback_result
    (func : Plugin -> Z -> Plugin * bool) (p : Plugin) (n : Z) :
  update_only_mode p = false ->
  required_input_names p = [] ->
  wrap_push_all_records func p n = (fst (func p n), Return true).
Proof.
  intros Huom Hreq. unfold wrap_push_all_records.
  by rewrite Huom, Hreq.
Qed.

Lemma push_all_records_ignores_callback_result_witness :
  snd (failing_generator user_build_metadata
         (new_plugin false [] ["Output"]) 10) = false
  /\ wrap_push_all_records (failing_generator user_build_metadata)
       (new_plugin false [] ["Output"]) 10
     = (emit (EvUserPushAllRecords 10) (new_plugin false [] ["Output"]),
        Return true).
Proof.
  split; [reflexivity|].
  apply (push_all_records_ignores_callback_result
           (failing_generator user_build_metadata)
           (new_plugin false [] ["Output"]) 10); reflexivity.
Defined.

(** C3, as the code has it.  When [xmltodict.parse] raises on the
    payload, [pi_init] has no handler: the exception reaches the caller.
    Nothing is returned, nothing is logged, the user's init function is
    not called, and [initialized] keeps the value it had. *)
Theorem pi_init_parse_failure_propagates
    (xmltodict_parse : string -> option (list (string * Config)))
    (func : Plugin -> Plugin * bool) (p : Plugin) (config_xml : string) :
  xmltodict_parse config_xml = None ->
  snd (wrap_pi_init xmltodict_parse func p config_xml) = Raise ExpatError
  /\ initialized (fst (wrap_pi_init xmltodict_parse func p config_xml))
     = initialized p
  /\ trace (fst (wrap_pi_init xmltodict_parse func p config_xml))
     = trace p ++ [EvSaveOutputAnchorRefs].
Proof.
  intros Hparse. unfold wrap_pi_init. rewrite Hparse. simpl. auto.
Qed.

Lemma pi_init_parse_failure_propagates_witness :
  sample_parse "" = None
  /\ snd (wrap_pi_init sample_parse (user_init agreeable)
            (new_plugin false ["A"] ["Output"]) "") = Raise ExpatError.
Proof.
  split; [reflexivity|].
  apply (pi_init_parse_failure_propagates sample_parse (user_init agreeable)
           (new_plugin false ["A"] ["Output"]) "").
  reflexivity.
Defined.

(** C3 as stated fails: on a payload that does not parse, [pi_init] does
    not return [False] and logs no error; the parser's exception leaves
    [pi_init]. *)
Lemma pi_init_parse_failure_not_reported :
  let F := user_factory agreeable Batch in
  let p := new_plugin false ["A"] ["Output"] in
  sample_parse "" = None
  /\ snd (pi_init sample_parse F p "") <> Return false
  /\ snd (pi_init sample_parse F p "") = Raise ExpatError
  /\ count_events is_log_error (fst (pi_init sample_parse F p "")) = 0.
Proof. repeat split; try reflexivity. discriminate. Qed.

(** ** Interface-level wrappers *)

(** C8.  [ii_push_record] returns [False] exactly when the plugin is not
    initialized or is in update-only mode, and then the plugin is left
    as it was (the strategy function is not called); in every other case
    the plugin is what the strategy function made of it and the answer
    is [True]. *)
Theorem ii_push_record_guard
    (func : Plugin -> nat -> InRecord -> Plugin) (p : Plugin) (i : nat)
    (r : InRecord) :
  (snd (wrap_ii_push_record func p i r) = false
   <-> initialized p = false \/ update_only_mode p = true)
  /\ (snd (wrap_ii_push_record func p i r) = false ->
      fst (wrap_ii_push_record func p i r) = p)
  /\ (snd (wrap_ii_push_record func p i r) = true ->
      fst (wrap_ii_push_record func p i r) = func p i r).
Proof.
  unfold wrap_ii_push_record.
  destruct (initialized p), (update_only_mode p); simpl;
    (split; [split; [auto | intros [?|?]; congruence]
            | split; intros ?; congruence || reflexivity]).
Qed.

(** ** Runs of a plugin defined with [process_data] *)

Ltac unfold_calls :=
  unfold step, pi_init, pi_add_incoming_connection, pi_push_all_records,
    pi_add_outgoing_connection, pi_close, ii_init, ii_push_record,
    ii_update_progress, ii_close,
    wrap_pi_init, wrap_pi_add_incoming_connection, wrap_push_all_records,
    wrap_pi_add_outgoing_connection, wrap_pi_close, wrap_ii_init,
    wrap_ii_push_record, wrap_ii_update_progress, wrap_ii_close,
    batch_ii_close, stream_ii_push_record, source_pi_push_all_records,
    build_metadata, clear_accumulated_records, accumulate_record,
    push_all_output_records, close_all_outputs, update_progress,
    save_output_anchor_refs, save_interface, on_interface,
    user_init, user_add_incoming, user_add_outgoing, user_ii_init,
    user_progress, user_close, user_build_metadata, user_process_data,
    emit in *.

(** Split a call of the engine into the paths the wrappers can take. *)
Ltac step_cases :=
  repeat (unfold_calls; simpl in *; rewrite ?push_metadata_items_emit in *;
          try case_match);
  simpl in *; try congruence.

Lemma filter_close_outputs_process (items : list (string * OutputAnchor)) :
  List.filter is_process_data (map (fun na => EvCloseOutput (fst na)) items)
  = [].
Proof. induction items as [|[? ?] ? IH]; simpl; auto. Qed.

Ltac count_trace :=
  unfold count_events; simpl;
  repeat (progress
            (rewrite ?List.filter_app, ?length_app,
               ?filter_metadata_pushes_process, ?filter_metadata_pushes_build,
               ?filter_close_outputs_process; simpl));
  try lia.

Lemma no_input_completed_alter f i (l : list Interface) :
  (forall c, completed (f c) = completed c) ->
  Forall (fun c => completed c = false) l ->
  Forall (fun c => completed c = false) (alter f i l).
Proof.
  intros Hf Hp. apply Forall_alter; [done|].
  intros c _ Hc. by rewrite Hf.
Qed.

Lemma not_all_inputs_completed p :
  no_input_completed p -> interfaces p <> [] -> all_inputs_completed p = false.
Proof.
  unfold no_input_completed, all_inputs_completed.
  destruct (interfaces p) as [|c l]; [congruence|].
  intros Hc _. inversion Hc as [|? ? Hc0 ?]; subst. simpl. by rewrite Hc0.
Qed.

Section Runs.

Variable xmltodict_parse : string -> option (list (string * Config)).
Variable U : UserCode.
Variable mode : Mode.

Local Abbreviation F := (user_factory U mode).

Lemma step_update_only_mode p c :
  update_only_mode (step xmltodict_parse F p c) = update_only_mode p.
Proof. destruct c, mode; step_cases. Qed.

Lemma run_cons p c cs :
  run xmltodict_parse F p (c :: cs)
  = run xmltodict_parse F (step xmltodict_parse F p c) cs.
Proof. reflexivity. Qed.

Lemma run_update_only_mode cs p :
  update_only_mode (run xmltodict_parse F p cs) = update_only_mode p.
Proof.
  revert p. induction cs as [|c cs IH]; intros p; [done|].
  by rewrite run_cons, IH, step_update_only_mode.
Qed.

(** *** Update-only mode *)



Lemma step_dry_run_completed p c :
  update_only_mode p = true ->
  no_input_completed p ->
  no_input_completed (step xmltodict_parse F p c).
Proof.
  unfold no_input_completed. intros Huom Hp.
  destruct c, mode; step_cases;
    repeat (apply no_input_completed_alter; [by intros []|]);
    try (apply Forall_app; split; [|by repeat constructor]);
    try done.
Qed.

Lemma run_dry_run_completed cs p :
  update_only_mode p = true ->
  no_input_completed p ->
  no_input_completed (run xmltodict_parse F p cs).
Proof.
  revert p. induction cs as [|c cs IH]; intros p Huom Hp; [done|].
  rewrite run_cons. apply IH; [by rewrite step_update_only_mode|].
  by apply step_dry_run_completed.
Qed.

End Runs.

(** *** Update-only (dry-run) mode *)

(** C10.  In update-only mode [ii_close] returns at once: the interface
    is not marked completed and the function behind it is not called, so
    the plugin is unchanged.  Hence, in a run in update-only mode that
    starts with no interface completed, a plugin with at least one
    registered interface never has [all_inputs_completed], and [pi_close]
    calls neither the user's close function nor [close_all_outputs]: it
    leaves the plugin unchanged. *)
Theorem dry_run_close_does_nothing
    (xmltodict_parse : string -> option (list (string * Config)))
    (U : UserCode) (mode : Mode) (func : Plugin -> Plugin)
    (p : Plugin) (cs : list Call) (i : nat) (b : bool) :
  update_only_mode p = true ->
  no_input_completed p ->
  let F := user_factory U mode in
  let q := run xmltodict_parse F p cs in
  interfaces q <> [] ->
  wrap_ii_close func q i = q
  /\ ii_close F q i = q
  /\ all_inputs_completed q = false
  /\ wrap_pi_close func q b = q
  /\ pi_close F q b = q.
Proof.
  intros Huom Hp F q Hq.
  assert (Hq_uom : update_only_mode q = true)
    by (subst q F; by rewrite run_update_only_mode).
  assert (Hq_all : all_inputs_completed q = false).
  { apply not_all_inputs_completed; [|done].
    subst q F. by apply run_dry_run_completed. }
  unfold ii_close, pi_close, wrap_ii_close, wrap_pi_close.
  by rewrite Hq_uom, Hq_all.
Qed.

Lemma dry_run_close_does_nothing_witness :
  let F := user_factory agreeable Batch in
  let p := new_plugin true ["A"; "B"] ["Output"] in
  let q := run sample_parse F p
             (setup_two_inputs
              ++ [CallIiPushRecord 0 "a1"; CallIiClose 0; CallIiClose 1]) in
  length (interfaces q) = 2
  /\ ii_close F q 1 = q
  /\ all_inputs_completed q = false
  /\ pi_close F q false = q.
Proof.
  split; [reflexivity|].
  pose proof (dry_run_close_does_nothing sample_parse agreeable Batch
                user_close (new_plugin true ["A"; "B"] ["Output"])
                (setup_two_inputs
                 ++ [CallIiPushRecord 0 "a1"; CallIiClose 0; CallIiClose 1])
                1 false) as H.
  destruct H as (_ & H1 & H2 & _ & H3).
  - reflexivity.
  - constructor.
  - discriminate.
  - exact (conj H1 (conj H2 H3)).
Defined.




(** *** Stream mode *)

Lemma cleared_view (l : list Interface) (r : InRecord) (f : nat -> bool) :
  (forall j, f j = false) ->
  map (fun c => (anchor_name c, record_list_in c))
    (map (set_record_list_in []) l)
  = imap (fun j c => (anchor_name c, if f j then [r] else [])) l.
Proof.
  revert f. induction l as [|c l IH]; intros f Hf; simpl; [done|].
  rewrite Hf. f_equal. exact (IH (f ∘ S) (fun j => Hf (S j))).
Qed.

(** The buffers after [clear_accumulated_records] and then
    [accumulate_record] on interface [i]. *)
Lemma single_slot_view (l : list Interface) (i : nat) (r : InRecord) :
  map (fun c => (anchor_name c, record_list_in c))
    (alter (fun c => set_record_list_in (record_list_in c ++ [r]) c) i
       (map (set_record_list_in []) l))
  = imap (fun j c => (anchor_name c,
                      if bool_decide (j = i) then [r] else [])) l.
Proof.
  revert i. induction l as [|c l IH]; intros i; [done|].
  destruct i as [|i]; simpl.
  - f_equal.
    exact (cleared_view l r (fun j => bool_decide (S j = 0)) (fun j => eq_refl)).
  - f_equal. etransitivity; [exact (IH i)|].
    apply imap_ext. intros j c' _. simpl.
    by rewrite (bool_decide_ext (S j = S i) (j = i)) by lia.
Qed.

Lemma single_slot_resident (l : list Interface) (i : nat) (r : InRecord) :
  i < length l ->
  concat (map snd (imap (fun j c => (anchor_name c,
                           if bool_decide (j = i) then [r] else [])) l))
  = [r].
Proof.
  rewrite <- single_slot_view.
  revert i. induction l as [|c l IH]; intros i Hi; simpl in *; [lia|].
  destruct i as [|i]; simpl.
  - f_equal. clear. induction l as [|c l IH]; simpl; auto.
  - apply IH. lia.
Qed.

Lemma stream_push_record_eq (U : UserCode) (p : Plugin) (i : nat)
    (r : InRecord) :
  initialized p = true ->
  update_only_mode p = false ->
  ii_push_record (user_factory U Stream) p i r
  = (emit_all
       ([EvBuildMetadata;
         EvProcessData
           (input_view (accumulate_record i r (clear_accumulated_records p)))]
        ++ metadata_pushes (output_anchors p) ++ [EvPushAllOutputRecords])
       (accumulate_record i r (clear_accumulated_records p)), true).
Proof.
  intros Hinit Huom.
  unfold ii_push_record, wrap_ii_push_record. rewrite Hinit, Huom. simpl.
  unfold stream_ii_push_record, build_metadata. rewrite Hinit. simpl.
  rewrite Huom. simpl. rewrite push_metadata_items_emit.
  unfold push_all_output_records, user_process_data, user_build_metadata,
    emit.
  rewrite !emit_all_emit_all. simpl. f_equal.
Qed.

(** C5.  In stream mode, [ii_push_record] on an initialized plugin that
    is not in update-only mode first clears the buffers of all
    interfaces, then appends the incoming record to the buffer of the
    interface it arrived on.  The user's [process_data] function is then
    called once, after the metadata function, and what it sees is the
    incoming record on that interface and an empty buffer on every other
    one: that record is the only one resident.  Metadata is then pushed
    to every output anchor and the output records are flushed. *)
Theorem stream_push_record_single_slot
    (U : UserCode) (p : Plugin) (i : nat) (r : InRecord) :
  initialized p = true ->
  update_only_mode p = false ->
  i < length (interfaces p) ->
  let F := user_factory U Stream in
  let view :=
    imap (fun j c => (anchor_name c, if bool_decide (j = i) then [r] else []))
      (interfaces p) in
  ii_push_record F p i r
  = (emit_all
       ([EvBuildMetadata; EvProcessData view]
        ++ metadata_pushes (output_anchors p) ++ [EvPushAllOutputRecords])
       (accumulate_record i r (clear_accumulated_records p)), true)
  /\ trace (fst (ii_push_record F p i r))
     = trace p ++ [EvBuildMetadata; EvProcessData view]
       ++ metadata_pushes (output_anchors p) ++ [EvPushAllOutputRecords]
  /\ input_view (fst (ii_push_record F p i r)) = view
  /\ concat (map snd view) = [r].
Proof.
  intros Hinit Huom Hi F view.
  assert (Hview :
    input_view (accumulate_record i r (clear_accumulated_records p)) = view)
    by apply single_slot_view.
  subst F. rewrite stream_push_record_eq by done. rewrite Hview.
  repeat split.
  - exact Hview.
  - by apply single_slot_resident.
Qed.

Lemma stream_push_record_single_slot_witness :
  let F := user_factory agreeable Stream in
  let p := run sample_parse F (new_plugin false ["A"; "B"] ["Output"])
             (setup_two_inputs ++ [CallIiPushRecord 0 "a1"]) in
  input_view p = [("A", ["a1"]); ("B", [])]
  /\ trace (fst (ii_push_record F p 1 "b1"))
     = trace p ++ [EvBuildMetadata;
                   EvProcessData [("A", []); ("B", ["b1"])];
                   EvPushMetadata "Output"; EvPushAllOutputRecords].
Proof.
  split; [reflexivity|].
  apply (stream_push_record_single_slot agreeable
           (run sample_parse (user_factory agreeable Stream)
              (new_plugin false ["A"; "B"] ["Output"])
              (setup_two_inputs ++ [CallIiPushRecord 0 "a1"]))
           1 "b1"); [reflexivity | reflexivity | simpl; lia].
Defined.

(** C2, as the code has it.  [build_metadata] has one guard, update-only
    mode: outside that mode it calls the user's metadata function every
    time.  In stream mode each [ii_push_record] on an initialized plugin
    therefore calls the metadata function once, and a run of [n] such
    calls calls it [n] times. *)
Theorem stream_metadata_hook_per_record
    (xmltodict_parse : string -> option (list (string * Config)))
    (U : UserCode) (p : Plugin) (cs : list Call) :
  update_only_mode p = false ->
  initialized p = true ->
  forallb is_push_record cs = true ->
  let F := user_factory U Stream in
  (forall bm : Hook, build_metadata bm p = bm p)
  /\ count_events is_build_metadata (run xmltodict_parse F p cs)
     = count_events is_build_metadata p + length cs.
Proof.
  intros Huom Hinit Hcs F. split.
  { intros bm. unfold build_metadata. by rewrite Huom. }
  revert p Huom Hinit. induction cs as [|c cs IH]; intros p Huom Hinit.
  { simpl. lia. }
  simpl in Hcs. apply andb_true_iff in Hcs as [Hc Hcs].
  destruct c as [| | | | | |i r| |]; try discriminate.
  subst F. rewrite run_cons. unfold step.
  rewrite stream_push_record_eq by done.
  rewrite IH by done. simpl. count_trace.
Qed.

Lemma stream_metadata_hook_per_record_witness :
  let F := user_factory agreeable Stream in
  let p := run sample_parse F (new_plugin false ["A"; "B"] ["Output"])
             setup_two_inputs in
  count_events is_build_metadata p = 0
  /\ count_events is_build_metadata
       (run sample_parse F p
          [CallIiPushRecord 0 "a1"; CallIiPushRecord 0 "a2";
           CallIiPushRecord 1 "b1"]) = 0 + 3.
Proof.
  split; [reflexivity|].
  apply (stream_metadata_hook_per_record sample_parse agreeable
           (run sample_parse (user_factory agreeable Stream)
              (new_plugin false ["A"; "B"] ["Output"]) setup_two_inputs)
           [CallIiPushRecord 0 "a1"; CallIiPushRecord 0 "a2";
            CallIiPushRecord 1 "b1"] eq_refl eq_refl eq_refl).
Defined.

(** C2 as stated fails: in a normal stream-mode run with two records, the
    user's metadata function is called twice. *)
Lemma stream_metadata_hook_twice :
  let F := user_factory agreeable Stream in
  let p := new_plugin false ["A"; "B"] ["Output"] in
  update_only_mode p = false
  /\ count_events is_build_metadata
       (run sample_parse F p
          (setup_two_inputs
           ++ [CallIiPushRecord 0 "a1"; CallIiPushRecord 1 "b1"])) = 2.
Proof. split; reflexivity. Qed.

(** *** After a failed interface init *)

Section Uninitialized.

Variable xmltodict_parse : string -> option (list (string * Config)).
Variable U : UserCode.
Variable mode : Mode.

Local Abbreviation F := (user_factory U mode).





End Uninitialized.



(** *** Batch mode *)




Lemma input_view_alter_completed b i (l : list Interface) :
  map (fun c => (anchor_name c, record_list_in c)) (alter (set_completed b) i l)
  = map (fun c => (anchor_name c, record_list_in c)) l.
Proof.
  revert i. induction l as [|c l IH]; intros i; [done|].
  destruct i as [|i]; simpl; f_equal. apply IH.
Qed.

Section BatchRuns.

Variable xmltodict_parse : string -> option (list (string * Config)).
Variable U : UserCode.

Local Abbreviation F := (user_factory U Batch).

Lemma batch_push_record p j r :
  initialized p = true ->
  update_only_mode p = false ->
  step xmltodict_parse F p (CallIiPushRecord j r) = accumulate_record j r p.
Proof.
  intros Hinit Huom. unfold step, ii_push_record, wrap_ii_push_record.
  by rewrite Hinit, Huom.
Qed.

Lemma batch_ii_close_fires q :
  initialized q = true ->
  all_inputs_completed q = true ->
  batch_ii_close user_build_metadata user_process_data q
  = emit_all (firing_events q) q.
Proof.
  intros Hinit Hall. unfold batch_ii_close, build_metadata, firing_events.
  rewrite Hinit, Hall. simpl. rewrite push_metadata_items_emit.
  unfold push_all_output_records, user_process_data, user_build_metadata,
    emit.
  destruct (update_only_mode q) eqn:Huom; simpl;
    rewrite !emit_all_emit_all; reflexivity.
Qed.

Lemma batch_close p j :
  initialized p = true ->
  update_only_mode p = false ->
  step xmltodict_parse F p (CallIiClose j)
  = if all_inputs_completed (on_interface (set_completed true) j p)
    then emit_all (firing_events (on_interface (set_completed true) j p))
           (on_interface (set_completed true) j p)
    else on_interface (set_completed true) j p.
Proof.
  intros Hinit Huom. unfold step, ii_close, wrap_ii_close. rewrite Huom.
  simpl.
  destruct (all_inputs_completed (on_interface (set_completed true) j p))
    eqn:Hall.
  - by rewrite batch_ii_close_fires.
  - unfold batch_ii_close. simpl. by rewrite Hinit, Hall.
Qed.

End BatchRuns.


Lemma input_view_lookup p j :
  input_view p !! j
  = (fun c => (anchor_name c, record_list_in c)) <$> interfaces p !! j.
Proof. exact (list_lookup_fmap _ (interfaces p) j). Qed.

Lemma firing_events_set_completed j p :
  firing_events (on_interface (set_completed true) j p) = firing_events p.
Proof.
  unfold firing_events, input_view. simpl.
  by rewrite input_view_alter_completed.
Qed.


Section BatchRecordFlow.

Variable xmltodict_parse : string -> option (list (string * Config)).
Variable U : UserCode.

Local Abbreviation F := (user_factory U Batch).
Local Abbreviation run' := (run xmltodict_parse F).


Lemma batch_view n cs : forall p,
  initialized p = true ->
  update_only_mode p = false ->
  forallb (is_record_flow n) cs = true ->
  input_view (run' p cs)
  = imap (fun j c => (anchor_name c, record_list_in c ++ pushed_on j cs))
      (interfaces p).
Proof.
  induction cs as [|c cs IH]; intros p Hinit Huom Hcs.
  - apply list_eq. intros k.
    rewrite list_lookup_imap. simpl. rewrite input_view_lookup.
    destruct (interfaces p !! k) as [c|]; simpl; [|done].
    by rewrite app_nil_r.
  - simpl in Hcs. apply andb_true_iff in Hcs as [Hc Hcs].
    rewrite run_cons.
    destruct c as [| | | | | |j r| |j]; try discriminate.
    + rewrite batch_push_record by done.
      rewrite IH by done. apply list_eq. intros k.
      rewrite !list_lookup_imap. simpl.
      destruct (decide (j = k)) as [->|Hne].
      * rewrite list_lookup_alter_eq, Nat.eqb_refl.
        destruct (interfaces p !! k) as [c|]; simpl; [|done].
        by rewrite <- app_assoc.
      * rewrite list_lookup_alter_ne by done.
        assert (Nat.eqb k j = false) as -> by (apply Nat.eqb_neq; lia).
        done.
    + rewrite batch_close by done.
      assert (Hgoal :
        input_view (run' (on_interface (set_completed true) j p) cs)
        = imap (fun k c => (anchor_name c,
                            record_list_in c ++ pushed_on k (CallIiClose j :: cs)))
            (interfaces p)).
      { rewrite IH by done. apply list_eq. intros k.
        rewrite !list_lookup_imap. simpl.
        destruct (decide (j = k)) as [->|Hne].
        - rewrite list_lookup_alter_eq.
          by destruct (interfaces p !! k) as [c|].
        - by rewrite list_lookup_alter_ne. }
      destruct (all_inputs_completed (on_interface (set_completed true) j p));
        [|exact Hgoal].
      rewrite <- Hgoal. rewrite !IH by done. reflexivity.
Qed.


End BatchRecordFlow.

Section BatchFiring.

Variable xmltodict_parse : string -> option (list (string * Config)).
Variable U : UserCode.

Local Abbreviation F := (user_factory U Batch).
Local Abbreviation run' := (run xmltodict_parse F).


End BatchFiring.



(** * Further properties of the wrappers *)

(** ** [pi_init] *)

(** X1.  When the payload parses but the document has no
    ["Configuration"] key, [pi_init] raises [KeyError]: the user's init
    function is not called, and [initialized] and [workflow_config] keep
    the values they had. *)
Theorem pi_init_missing_configuration_key
    (xmltodict_parse : string -> option (list (string * Config)))
    (func : Plugin -> Plugin * bool) (p : Plugin) (config_xml : string)
    (doc : list (string * Config)) :
  xmltodict_parse config_xml = Some doc ->
  getitem "Configuration" doc = None ->
  snd (wrap_pi_init xmltodict_parse func p config_xml)
  = Raise (KeyError "Configuration")
  /\ initialized (fst (wrap_pi_init xmltodict_parse func p config_xml))
     = initialized p
  /\ workflow_config (fst (wrap_pi_init xmltodict_parse func p config_xml))
     = workflow_config p
  /\ trace (fst (wrap_pi_init xmltodict_parse func p config_xml))
     = trace p ++ [EvSaveOutputAnchorRefs].
Proof.
  intros Hparse Hkey. unfold wrap_pi_init. rewrite Hparse, Hkey. simpl. auto.
Qed.

Lemma pi_init_missing_configuration_key_witness :
  sample_parse "<Settings/>" = Some [("Settings", [])]
  /\ snd (wrap_pi_init sample_parse (user_init agreeable)
            (new_plugin false ["A"] ["Output"]) "<Settings/>")
     = Raise (KeyError "Configuration").
Proof.
  split; [reflexivity|].
  apply (pi_init_missing_configuration_key sample_parse (user_init agreeable)
           (new_plugin false ["A"] ["Output"]) "<Settings/>"
           [("Settings", [])] eq_refl eq_refl).
Defined.

(** X2.  When the document has a ["Configuration"] entry, [pi_init]
    stores it before it calls the user's init function, so the user sees
    the new configuration; the user's answer is returned and becomes
    [initialized], whatever [initialized] was before. *)
Theorem pi_init_stores_then_asks_user
    (xmltodict_parse : string -> option (list (string * Config)))
    (U : UserCode) (mode : Mode) (p : Plugin) (config_xml : string)
    (doc : list (string * Config)) (cfg : Config) :
  xmltodict_parse config_xml = Some doc ->
  getitem "Configuration" doc = Some cfg ->
  let F := user_factory U mode in
  let shown := set_workflow_config cfg (save_output_anchor_refs p) in
  let answer := init_result U shown in
  workflow_config shown = Some cfg
  /\ snd (pi_init xmltodict_parse F p config_xml) = Return answer
  /\ initialized (fst (pi_init xmltodict_parse F p config_xml)) = answer
  /\ workflow_config (fst (pi_init xmltodict_parse F p config_xml))
     = Some cfg
  /\ trace (fst (pi_init xmltodict_parse F p config_xml))
     = trace p ++ [EvSaveOutputAnchorRefs; EvUserInit].
Proof.
  intros Hparse Hkey F shown answer. subst F.
  unfold pi_init, wrap_pi_init. rewrite Hparse, Hkey.
  destruct mode; simpl; rewrite <- app_assoc; auto.
Qed.

Lemma pi_init_stores_then_asks_user_witness :
  let F := user_factory agreeable Stream in
  let p := new_plugin false ["A"] ["Output"] in
  sample_parse "<Configuration/>" = Some [("Configuration", [])]
  /\ snd (pi_init sample_parse F p "<Configuration/>") = Return true
  /\ initialized (fst (pi_init sample_parse F p "<Configuration/>")) = true.
Proof.
  split; [reflexivity|].
  pose proof (pi_init_stores_then_asks_user sample_parse agreeable Stream
                (new_plugin false ["A"] ["Output"]) "<Configuration/>"
                [("Configuration", [])] [] eq_refl eq_refl) as H.
  cbv zeta in H. destruct H as (_ & H1 & H2 & _).
  exact (conj H1 H2).
Defined.

(** ** [pi_add_incoming_connection] *)

(** X3.  [pi_add_incoming_connection] calls the user's hook and then
    registers a new interface on the anchor [str_type]: the interface it
    returns is the one registered, every interface registered before is
    unchanged, and the connection name only reaches the user's hook. *)
Theorem add_incoming_connection_registers
    (U : UserCode) (mode : Mode) (p : Plugin) (str_type str_name : string) :
  let F := user_factory U mode in
  let r := pi_add_incoming_connection F p str_type str_name in
  interfaces (fst r) !! snd r = Some (new_interface str_type)
  /\ anchor_name (new_interface str_type) = str_type
  /\ length (interfaces (fst r)) = S (length (interfaces p))
  /\ (forall j, j < length (interfaces p) ->
        interfaces (fst r) !! j = interfaces p !! j)
  /\ trace (fst r) = trace p ++ [EvUserAddIncoming str_type str_name]
  /\ (forall other_name,
        interfaces (fst (pi_add_incoming_connection F p str_type other_name))
        = interfaces (fst r)).
Proof.
  intros F r. subst r F. destruct mode; simpl;
    (split; [by rewrite lookup_app_r, Nat.sub_diag by lia|]);
    (split; [done|]);
    (split; [rewrite length_app; simpl; lia|]);
    (split; [intros j Hj; by rewrite lookup_app_l|]);
    done.
Qed.

(** ** [ii_init] *)

(** X4.  [ii_init] never turns the plugin's [initialized] on: afterwards
    it holds only if it held before and the user's hook succeeded.  The
    other interfaces are not touched and no interface is added or
    removed. *)
Theorem ii_init_never_initializes_plugin
    (U : UserCode) (mode : Mode) (p : Plugin) (i : nat) (ri : RecordInfo) :
  let F := user_factory U mode in
  let r := ii_init F p i ri in
  initialized (fst r) = initialized p && snd r
  /\ length (interfaces (fst r)) = length (interfaces p)
  /\ (forall j, j <> i -> interfaces (fst r) !! j = interfaces p !! j).
Proof.
  intros F r. subst r F.
  destruct mode; step_cases;
    rewrite ?andb_true_r, ?andb_false_r, ?length_alter;
    (split; [done|]); (split; [done|]);
    intros j Hj; by rewrite !list_lookup_alter_ne.
Qed.

(** X5.  After [ii_init] the interface holds the schema it was given and
    the column metadata computed from it, also when the user's hook
    rejected it; its [initialized] flag is the hook's answer, and its
    buffer and completion are as before. *)
Theorem ii_init_keeps_schema
    (U : UserCode) (mode : Mode) (p : Plugin) (i : nat) (ri : RecordInfo)
    (c : Interface) :
  interfaces p !! i = Some c ->
  let F := user_factory U mode in
  let r := ii_init F p i ri in
  interfaces (fst r) !! i
  = Some (mkInterface (anchor_name c) (Some ri)
            (Some (get_column_metadata ri)) (snd r) (completed c)
            (record_list_in c)).
Proof.
  intros Hc F r. subst r F.
  destruct mode; step_cases; rewrite !list_lookup_alter_eq, Hc; simpl;
    unfold set_ii_initialized, set_anchor_metadata, set_record_info_in;
    simpl; reflexivity.
Qed.

Lemma ii_init_keeps_schema_witness :
  let F := user_factory rejects_first Batch in
  let p := run sample_parse F (new_plugin false ["A"] ["Output"])
             [CallPiInit "<Configuration/>";
              CallPiAddIncomingConnection "A" "#1"] in
  snd (ii_init F p 0 [("x", "int64")]) = false
  /\ interfaces (fst (ii_init F p 0 [("x", "int64")])) !! 0
     = Some (mkInterface "A" (Some [("x", "int64")])
               (Some [("x", "int64")]) false false []).
Proof.
  split; [reflexivity|].
  apply (ii_init_keeps_schema rejects_first Batch
           (run sample_parse (user_factory rejects_first Batch)
              (new_plugin false ["A"] ["Output"])
              [CallPiInit "<Configuration/>";
               CallPiAddIncomingConnection "A" "#1"])
           0 [("x", "int64")] (new_interface "A") eq_refl).
Defined.

(** X6.  Outside update-only mode [ii_init] only calls the user's hook:
    the user's metadata function is not called and no metadata is pushed
    to an output anchor. *)
Theorem ii_init_normal_mode_no_metadata
    (U : UserCode) (mode : Mode) (p : Plugin) (i : nat) (ri : RecordInfo) :
  update_only_mode p = false ->
  trace (fst (ii_init (user_factory U mode) p i ri))
  = trace p ++ [EvUserIiInit i ri].
Proof.
  intros Huom.
  destruct mode; step_cases; rewrite Huom in *; discriminate.
Qed.

Lemma ii_init_normal_mode_no_metadata_witness :
  let F := user_factory agreeable Batch in
  let p := run sample_parse F (new_plugin false ["A"] ["Output"])
             [CallPiInit "<Configuration/>";
              CallPiAddIncomingConnection "A" "#1"] in
  all_required_inputs_initialized (fst (ii_init F p 0 [("x", "int64")]))
  = true
  /\ trace (fst (ii_init F p 0 [("x", "int64")]))
     = trace p ++ [EvUserIiInit 0 [("x", "int64")]].
Proof.
  split; [reflexivity|].
  apply (ii_init_normal_mode_no_metadata agreeable Batch
           (run sample_parse (user_factory agreeable Batch)
              (new_plugin false ["A"] ["Output"])
              [CallPiInit "<Configuration/>";
               CallPiAddIncomingConnection "A" "#1"])
           0 [("x", "int64")] eq_refl).
Defined.

(** ** The strategies of [process_data] *)

Lemma run_step
    (xmltodict_parse : string -> option (list (string * Config)))
    (F : Factory) (p : Plugin) (c : Call) (cs : list Call) :
  run xmltodict_parse F p (c :: cs)
  = run xmltodict_parse F (step xmltodict_parse F p c) cs.
Proof. reflexivity. Qed.

(** X7.  Source mode.  On a tool without required inputs and outside
    update-only mode, [pi_push_all_records] calls the user's metadata
    function, then the decorated function, then pushes metadata to every
    output anchor and flushes the output records, and returns [True].
    The strategy does not look at [initialized]: this happens on a
    plugin whose [pi_init] failed as well. *)
Theorem source_push_all_records_fires
    (U : UserCode) (p : Plugin) (n : Z) :
  update_only_mode p = false ->
  required_input_names p = [] ->
  pi_push_all_records (user_factory U Source) p n
  = (emit_all
       ([EvBuildMetadata; EvProcessData (input_view p)]
        ++ metadata_pushes (output_anchors p) ++ [EvPushAllOutputRecords])
       p, Return true).
Proof.
  intros Huom Hreq.
  unfold pi_push_all_records, wrap_push_all_records. rewrite Huom, Hreq.
  simpl. unfold source_pi_push_all_records, build_metadata. rewrite Huom.
  simpl. rewrite push_metadata_items_emit.
  unfold push_all_output_records, user_process_data, user_build_metadata,
    emit.
  by rewrite !emit_all_emit_all.
Qed.

Lemma source_push_all_records_fires_witness :
  let p := new_plugin false [] ["Output"] in
  initialized p = false
  /\ pi_push_all_records (user_factory agreeable Source) p 10
     = (emit_all [EvBuildMetadata; EvProcessData [];
                  EvPushMetadata "Output"; EvPushAllOutputRecords] p,
        Return true).
Proof.
  split; [reflexivity|].
  apply (source_push_all_records_fires agreeable
           (new_plugin false [] ["Output"]) 10 eq_refl eq_refl).
Defined.

(** X8.  One call of the engine calls the decorated function at most
    once, and only through the entry point of the mode: [ii_close] in
    batch mode, [ii_push_record] in stream mode, [pi_push_all_records]
    in source mode.  No other entry point ever calls it. *)
Theorem process_data_called_from_its_mode_only
    (xmltodict_parse : string -> option (list (string * Config)))
    (U : UserCode) (mode : Mode) (p : Plugin) (c : Call) :
  let p' := step xmltodict_parse (user_factory U mode) p c in
  count_events is_process_data p' = count_events is_process_data p
  \/ (count_events is_process_data p' = S (count_events is_process_data p)
      /\ call_site mode c = true).
Proof.
  intros p'. subst p'.
  destruct c, mode; step_cases; count_trace;
    first [left; lia | right; split; [lia | reflexivity]].
Qed.

(** X9.  Stream mode, on an initialized plugin outside update-only mode.
    Over any run without [pi_init] and [ii_init], the decorated function
    is called once for each [ii_push_record] and by nothing else:
    closing interfaces, the node-level close, progress reports and new
    connections add no call. *)
Theorem stream_one_call_per_record
    (xmltodict_parse : string -> option (list (string * Config)))
    (U : UserCode) (p : Plugin) (cs : list Call) :
  initialized p = true ->
  update_only_mode p = false ->
  forallb keeps_initialized cs = true ->
  let F := user_factory U Stream in
  count_events is_process_data (run xmltodict_parse F p cs)
  = count_events is_process_data p + count_push cs
  /\ initialized (run xmltodict_parse F p cs) = true.
Proof.
  intros Hinit Huom Hcs F. subst F.
  revert p Hinit Huom. induction cs as [|c cs IH]; intros p Hinit Huom.
  { unfold count_push. simpl. split; [lia | done]. }
  simpl in Hcs. apply andb_true_iff in Hcs as [Hc Hcs].
  rewrite run_step.
  assert (Hstep :
    initialized (step xmltodict_parse (user_factory U Stream) p c) = true
    /\ update_only_mode (step xmltodict_parse (user_factory U Stream) p c)
       = false
    /\ count_events is_process_data
         (step xmltodict_parse (user_factory U Stream) p c)
       = count_events is_process_data p
         + (if is_push_record c then 1 else 0)).
  { destruct c; try discriminate; step_cases;
      try (rewrite ?Hinit, ?Huom in *; discriminate);
      (split; [done|]); (split; [done|]); count_trace. }
  destruct Hstep as (Hinit' & Huom' & Hcount).
  destruct (IH Hcs _ Hinit' Huom') as [IH1 IH2].
  split; [|done]. rewrite IH1, Hcount. unfold count_push. simpl.
  destruct (is_push_record c); simpl; lia.
Qed.

Lemma stream_one_call_per_record_witness :
  let F := user_factory agreeable Stream in
  let p := run sample_parse F (new_plugin false ["A"; "B"] ["Output"])
             setup_two_inputs in
  count_events is_process_data p = 0
  /\ count_events is_process_data
       (run sample_parse F p
          [CallIiPushRecord 0 "a1"; CallIiUpdateProgress 0 50;
           CallIiPushRecord 1 "b1"; CallIiClose 0; CallIiClose 1;
           CallPiClose false]) = 0 + 2.
Proof.
  split; [reflexivity|].
  apply (stream_one_call_per_record sample_parse agreeable
           (run sample_parse (user_factory agreeable Stream)
              (new_plugin false ["A"; "B"] ["Output"]) setup_two_inputs)
           [CallIiPushRecord 0 "a1"; CallIiUpdateProgress 0 50;
            CallIiPushRecord 1 "b1"; CallIiClose 0; CallIiClose 1;
            CallPiClose false] eq_refl eq_refl eq_refl).
Defined.

(** X10.  A tool that decorates no function with [initialize_plugin]
    keeps the default [noop] as its init function, whose result [None]
    is what [pi_init] stores in [initialized].  In batch and stream mode
    such a plugin never becomes initialized, whatever the engine calls:
    every [ii_push_record] returns [False] and the decorated function is
    never called. *)
Theorem missing_initialize_plugin_disables_processing
    (xmltodict_parse : string -> option (list (string * Config)))
    (U : UserCode) (mode : Mode) (p : Plugin) (cs : list Call) :
  mode <> Source ->
  initialized p = false ->
  let F := user_factory_no_init U mode in
  let q := run xmltodict_parse F p cs in
  initialized q = false
  /\ count_events is_process_data q = count_events is_process_data p
  /\ (forall j r, ii_push_record F q j r = (q, false)).
Proof.
  intros Hmode Hinit F q.
  assert (Hrun : initialized q = false
                 /\ count_events is_process_data q
                    = count_events is_process_data p).
  { subst q F. revert p Hinit.
    induction cs as [|c cs IH]; intros p Hinit; [done|].
    rewrite run_step.
    assert (Hstep :
      initialized
        (step xmltodict_parse (user_factory_no_init U mode) p c) = false
      /\ count_events is_process_data
           (step xmltodict_parse (user_factory_no_init U mode) p c)
         = count_events is_process_data p).
    { unfold user_factory_no_init.
      destruct c, mode; try congruence; step_cases;
        try (rewrite ?Hinit in *; discriminate);
        (split; [done|]); count_trace. }
    destruct Hstep as [Hinit' Hcount].
    destruct (IH _ Hinit') as [IH1 IH2]. split; [done|]. by rewrite IH2. }
  destruct Hrun as [Hq Hcount]. split; [done|]. split; [done|].
  intros j r. unfold ii_push_record, wrap_ii_push_record. by rewrite Hq.
Qed.

Lemma missing_initialize_plugin_disables_processing_witness :
  let F := user_factory_no_init agreeable Batch in
  let q := run sample_parse F (new_plugin false ["A"; "B"] ["Output"])
             (setup_two_inputs
              ++ [CallIiPushRecord 0 "a1"; CallIiClose 0; CallIiClose 1]) in
  snd (pi_init sample_parse F (new_plugin false ["A"; "B"] ["Output"])
         "<Configuration/>") = Return false
  /\ initialized q = false
  /\ count_events is_process_data q = 0.
Proof.
  split; [reflexivity|].
  pose proof (missing_initialize_plugin_disables_processing sample_parse
                agreeable Batch (new_plugin false ["A"; "B"] ["Output"])
                (setup_two_inputs
                 ++ [CallIiPushRecord 0 "a1"; CallIiClose 0; CallIiClose 1])
                ltac:(discriminate) eq_refl) as H.
  cbv zeta in H. destruct H as (H1 & H2 & _).
  exact (conj H1 H2).
Defined.

(** ** What no run changes *)

Section InterfacesKept.

Variable R : Interface -> Interface -> Prop.
Hypothesis R_refl : forall c, R c c.
Hypothesis R_trans : forall c1 c2 c3, R c1 c2 -> R c2 c3 -> R c1 c3.

Lemma interfaces_kept_refl l : interfaces_kept R l l.
Proof. intros j c Hj. exists c. split; [done | apply R_refl]. Qed.

Lemma interfaces_kept_trans l1 l2 l3 :
  interfaces_kept R l1 l2 -> interfaces_kept R l2 l3 ->
  interfaces_kept R l1 l3.
Proof.
  intros H12 H23 j c1 Hj.
  destruct (H12 j c1 Hj) as (c2 & Hj2 & Hr12).
  destruct (H23 j c2 Hj2) as (c3 & Hj3 & Hr23).
  exists c3. split; [done|]. by apply (R_trans c1 c2 c3).
Qed.

Lemma interfaces_kept_alter f i l l' :
  (forall c, R c (f c)) ->
  interfaces_kept R l l' -> interfaces_kept R l (alter f i l').
Proof.
  intros Hf Hl. apply (interfaces_kept_trans l l'); [done|].
  intros j c Hj. destruct (decide (i = j)) as [->|Hne].
  - exists (f c). split; [|done]. by rewrite list_lookup_alter_eq, Hj.
  - exists c. split; [|apply R_refl]. by rewrite list_lookup_alter_ne.
Qed.

Lemma interfaces_kept_map f l l' :
  (forall c, R c (f c)) ->
  interfaces_kept R l l' -> interfaces_kept R l (map f l').
Proof.
  intros Hf Hl. apply (interfaces_kept_trans l l'); [done|].
  intros j c Hj. exists (f c). split; [|apply Hf].
  change (map f l') with (f <$> l'). by rewrite list_lookup_fmap, Hj.
Qed.

Lemma interfaces_kept_app l l' l2 :
  interfaces_kept R l l' -> interfaces_kept R l (l' ++ l2).
Proof.
  intros Hl. apply (interfaces_kept_trans l l'); [done|].
  intros j c Hj. exists c. split; [|apply R_refl].
  rewrite lookup_app_l; [done|]. by apply lookup_lt_Some in Hj.
Qed.

End InterfacesKept.

Lemma same_connection_refl c : same_connection c c.
Proof. by split. Qed.

Lemma same_connection_trans c1 c2 c3 :
  same_connection c1 c2 -> same_connection c2 c3 -> same_connection c1 c3.
Proof. intros [H1 H2] [H3 H4]. split; [congruence | auto]. Qed.

Lemma untouched_data_refl c : untouched_data c c.
Proof. by repeat split. Qed.

Lemma untouched_data_trans c1 c2 c3 :
  untouched_data c1 c2 -> untouched_data c2 c3 -> untouched_data c1 c3.
Proof. intros (?&?&?) (?&?&?). repeat split; congruence. Qed.

(** Peel the updates of the interface list, one field update at a time. *)
Ltac kept_by Hrefl Htrans :=
  repeat first
    [ apply (interfaces_kept_alter _ Hrefl Htrans); [by intros [] |]
    | apply (interfaces_kept_map _ Htrans); [by intros [] |]
    | apply (interfaces_kept_app _ Hrefl Htrans) ];
  apply (interfaces_kept_refl _ Hrefl).

Lemma step_keeps_connections
    (xmltodict_parse : string -> option (list (string * Config)))
    (U : UserCode) (mode : Mode) (p : Plugin) (c : Call) :
  let p' := step xmltodict_parse (user_factory U mode) p c in
  interfaces_kept same_connection (interfaces p) (interfaces p')
  /\ map fst (output_anchors p') = map fst (output_anchors p)
  /\ required_input_names p' = required_input_names p.
Proof.
  destruct c, mode; step_cases;
    (split; [kept_by same_connection_refl same_connection_trans|]);
    rewrite ?map_map; simpl; done.
Qed.

(** X11.  Whatever the engine calls, in any mode: no interface is
    removed or moves to another position or anchor, and an interface
    that is completed stays completed.  The names of the output anchors,
    the required input names and the update-only flag never change. *)
Theorem run_keeps_connections
    (xmltodict_parse : string -> option (list (string * Config)))
    (U : UserCode) (mode : Mode) (p : Plugin) (cs : list Call) :
  let q := run xmltodict_parse (user_factory U mode) p cs in
  interfaces_kept same_connection (interfaces p) (interfaces q)
  /\ map fst (output_anchors q) = map fst (output_anchors p)
  /\ required_input_names q = required_input_names p
  /\ update_only_mode q = update_only_mode p.
Proof.
  intros q. subst q. revert p.
  induction cs as [|c cs IH]; intros p.
  { split; [|done]. apply interfaces_kept_refl, same_connection_refl. }
  rewrite run_step.
  destruct (step_keeps_connections xmltodict_parse U mode p c)
    as (H1 & H2 & H3).
  pose proof (step_update_only_mode xmltodict_parse U mode p c) as H4.
  destruct (IH (step xmltodict_parse (user_factory U mode) p c))
    as (IH1 & IH2 & IH3 & IH4).
  split.
  { eapply interfaces_kept_trans; [apply same_connection_trans| |];
      eassumption. }
  split; [congruence|]. split; congruence.
Qed.

Lemma step_keeps_buffers
    (xmltodict_parse : string -> option (list (string * Config)))
    (U : UserCode) (mode : Mode) (p : Plugin) (c : Call) :
  update_only_mode p = true ->
  interfaces_kept untouched_data (interfaces p)
    (interfaces (step xmltodict_parse (user_factory U mode) p c)).
Proof.
  intros Huom.
  destruct c, mode; step_cases;
    try (rewrite ?Huom, ?orb_true_r in *; discriminate);
    kept_by untouched_data_refl untouched_data_trans.
Qed.

(** X12.  In update-only mode no run accumulates a record or completes
    an interface: every interface keeps its anchor, its buffer and its
    completion flag. *)
Theorem dry_run_keeps_buffers
    (xmltodict_parse : string -> option (list (string * Config)))
    (U : UserCode) (mode : Mode) (p : Plugin) (cs : list Call) :
  update_only_mode p = true ->
  interfaces_kept untouched_data (interfaces p)
    (interfaces (run xmltodict_parse (user_factory U mode) p cs)).
Proof.
  revert p. induction cs as [|c cs IH]; intros p Huom.
  { apply interfaces_kept_refl, untouched_data_refl. }
  rewrite run_step.
  eapply interfaces_kept_trans; [apply untouched_data_trans| |].
  - by apply step_keeps_buffers.
  - apply IH. by rewrite step_update_only_mode.
Qed.

Lemma dry_run_keeps_buffers_witness :
  let F := user_factory agreeable Stream in
  let p := run sample_parse F (new_plugin true ["A"; "B"] ["Output"])
             setup_two_inputs in
  input_view p = [("A", []); ("B", [])]
  /\ interfaces_kept untouched_data (interfaces p)
       (interfaces (run sample_parse F p
                      [CallIiPushRecord 0 "a1"; CallIiClose 0;
                       CallIiPushRecord 1 "b1"; CallIiClose 1])).
Proof.
  split; [reflexivity|].
  apply (dry_run_keeps_buffers sample_parse agreeable Stream
           (run sample_parse (user_factory agreeable Stream)
              (new_plugin true ["A"; "B"] ["Output"]) setup_two_inputs)
           [CallIiPushRecord 0 "a1"; CallIiClose 0;
            CallIiPushRecord 1 "b1"; CallIiClose 1] eq_refl).
Defined.

(** X13.  Output anchors are closed by [pi_close] and by nothing else:
    after a run without [pi_close], every output anchor is open or
    closed as it was before. *)
Theorem outputs_closed_by_pi_close_only
    (xmltodict_parse : string -> option (list (string * Config)))
    (U : UserCode) (mode : Mode) (p : Plugin) (cs : list Call) :
  forallb (fun c => negb (is_pi_close c)) cs = true ->
  output_anchors (run xmltodict_parse (user_factory U mode) p cs)
  = output_anchors p.
Proof.
  revert p. induction cs as [|c cs IH]; intros p Hcs; [done|].
  simpl in Hcs. apply andb_true_iff in Hcs as [Hc Hcs].
  rewrite run_step, IH by done.
  clear IH Hcs. destruct c, mode; try discriminate; step_cases.
Qed.

Lemma outputs_closed_by_pi_close_only_witness :
  let F := user_factory agreeable Batch in
  let p := new_plugin false ["A"; "B"] ["Output"] in
  let cs := setup_two_inputs
            ++ [CallIiPushRecord 0 "a1"; CallIiClose 0; CallIiClose 1] in
  count_events is_process_data (run sample_parse F p cs) = 1
  /\ output_anchors (run sample_parse F p cs)
     = [("Output", mkOutputAnchor false)].
Proof.
  split; [reflexivity|].
  apply (outputs_closed_by_pi_close_only sample_parse agreeable Batch
           (new_plugin false ["A"; "B"] ["Output"])
           (setup_two_inputs
            ++ [CallIiPushRecord 0 "a1"; CallIiClose 0; CallIiClose 1])
           eq_refl).
Defined.

(** ** Batch mode: waiting for the inputs *)

Lemma forallb_completed_alter_true f i (l : list Interface) :
  (forall c, completed c = true -> completed (f c) = true) ->
  forallb completed l = true ->
  forallb completed (alter f i l) = true.
Proof.
  intros Hf. revert i. induction l as [|c l IH]; intros i Hl; [done|].
  simpl in Hl. apply andb_true_iff in Hl as [Hc Hl].
  destruct i as [|i]; simpl; apply andb_true_iff; split; auto.
  by apply IH.
Qed.

Lemma batch_step_stays_completed
    (xmltodict_parse : string -> option (list (string * Config)))
    (U : UserCode) (p : Plugin) (c : Call) :
  all_inputs_completed p = true ->
  is_add_incoming c = false ->
  all_inputs_completed (step xmltodict_parse (user_factory U Batch) p c)
  = true.
Proof.
  intros Hall Hc.
  destruct c; try discriminate; step_cases;
    unfold all_inputs_completed in *; simpl in *;
    repeat (apply forallb_completed_alter_true; [by intros [] |]);
    done.
Qed.

Lemma batch_run_stays_completed
    (xmltodict_parse : string -> option (list (string * Config)))
    (U : UserCode) (cs : list Call) : forall p,
  all_inputs_completed p = true ->
  forallb (fun c => negb (is_add_incoming c)) cs = true ->
  all_inputs_completed (run xmltodict_parse (user_factory U Batch) p cs)
  = true.
Proof.
  induction cs as [|c cs IH]; intros p Hall Hcs; [done|].
  simpl in Hcs. apply andb_true_iff in Hcs as [Hc Hcs].
  rewrite run_step. apply IH; [|done].
  apply batch_step_stays_completed; [done|]. by destruct (is_add_incoming c).
Qed.

Lemma batch_step_incomplete
    (xmltodict_parse : string -> option (list (string * Config)))
    (U : UserCode) (p : Plugin) (c : Call) :
  all_inputs_completed (step xmltodict_parse (user_factory U Batch) p c)
  = false ->
  count_events is_process_data
    (step xmltodict_parse (user_factory U Batch) p c)
  = count_events is_process_data p.
Proof.
  destruct c; step_cases; unfold all_inputs_completed in *; simpl in *;
    try congruence; intros _; count_trace.
Qed.

(** X14.  Batch mode, in any state of the plugin.  In a run in which no
    connection is added, the decorated function is not called as long as
    some interface is not completed: if the inputs are not all completed
    at the end of the run, it was never called during the run. *)
Theorem batch_waits_for_all_inputs
    (xmltodict_parse : string -> option (list (string * Config)))
    (U : UserCode) (p : Plugin) (cs : list Call) :
  forallb (fun c => negb (is_add_incoming c)) cs = true ->
  all_inputs_completed
    (run xmltodict_parse (user_factory U Batch) p cs) = false ->
  count_events is_process_data
    (run xmltodict_parse (user_factory U Batch) p cs)
  = count_events is_process_data p.
Proof.
  revert p. induction cs as [|c cs IH]; intros p Hcs Hall; [done|].
  simpl in Hcs. apply andb_true_iff in Hcs as [Hc Hcs].
  rewrite run_step in *.
  destruct (all_inputs_completed
              (step xmltodict_parse (user_factory U Batch) p c)) eqn:Hstep.
  - rewrite batch_run_stays_completed in Hall by done. discriminate.
  - rewrite IH by done. by apply batch_step_incomplete.
Qed.

Lemma batch_waits_for_all_inputs_witness :
  let F := user_factory agreeable Batch in
  let p := run sample_parse F (new_plugin false ["A"; "B"] ["Output"])
             setup_two_inputs in
  let cs := [CallIiPushRecord 0 "a1"; CallIiPushRecord 1 "b1";
             CallIiClose 0; CallIiClose 0; CallPiClose false] in
  initialized p = true
  /\ count_events is_process_data (run sample_parse F p cs)
     = count_events is_process_data p.
Proof.
  split; [reflexivity|].
  apply (batch_waits_for_all_inputs sample_parse agreeable
           (run sample_parse (user_factory agreeable Batch)
              (new_plugin false ["A"; "B"] ["Output"]) setup_two_inputs)
           [CallIiPushRecord 0 "a1"; CallIiPushRecord 1 "b1";
            CallIiClose 0; CallIiClose 0; CallPiClose false]
           eq_refl eq_refl).
Defined.

(** X15.  Batch mode never clears a buffer.  On an initialized plugin
    outside update-only mode, after any run of record pushes and closes
    (also after the decorated function has been called), the buffer of
    every interface is what it held at the start followed by the records
    pushed on it, in the order pushed. *)
Theorem batch_buffers_accumulate
    (xmltodict_parse : string -> option (list (string * Config)))
    (U : UserCode) (p : Plugin) (cs : list Call) :
  initialized p = true ->
  update_only_mode p = false ->
  forallb (is_record_flow (length (interfaces p))) cs = true ->
  input_view (run xmltodict_parse (user_factory U Batch) p cs)
  = imap (fun j c => (anchor_name c, record_list_in c ++ pushed_on j cs))
      (interfaces p).
Proof.
  intros Hinit Huom Hcs.
  by apply (batch_view xmltodict_parse U (length (interfaces p))).
Qed.

Lemma batch_buffers_accumulate_witness :
  let F := user_factory agreeable Batch in
  let p := run sample_parse F (new_plugin false ["A"; "B"] ["Output"])
             setup_two_inputs in
  let cs := [CallIiPushRecord 0 "a1"; CallIiClose 0; CallIiClose 1;
             CallIiPushRecord 1 "b1"; CallIiPushRecord 0 "a2"] in
  count_events is_process_data (run sample_parse F p cs) = 1
  /\ input_view (run sample_parse F p cs)
     = [("A", ["a1"; "a2"]); ("B", ["b1"])].
Proof.
  split; [reflexivity|].
  apply (batch_buffers_accumulate sample_parse agreeable
           (run sample_parse (user_factory agreeable Batch)
              (new_plugin false ["A"; "B"] ["Output"]) setup_two_inputs)
           [CallIiPushRecord 0 "a1"; CallIiClose 0; CallIiClose 1;
            CallIiPushRecord 1 "b1"; CallIiPushRecord 0 "a2"]
           eq_refl eq_refl eq_refl).
Defined.

(** ** Registration *)

Lemma lower_ascii_idempotent c : lower_ascii (lower_ascii c) = lower_ascii c.
Proof. destruct c as [[] [] [] [] [] [] [] []]; reflexivity. Qed.

Lemma lower_idempotent s : lower (lower s) = lower s.
Proof.
  induction s as [|c s IH]; simpl; [done|].
  by rewrite lower_ascii_idempotent, IH.
Qed.

(** X16.  The mode name of [process_data] is read without regard to
    upper and lower case: a name and its lowercase form select the same
    strategy.  A name whose lowercase form is none of ["batch"],
    ["stream"], ["source"] raises [ValueError], and then nothing is
    registered. *)
Theorem process_data_mode_ignores_case
    (mode : string) (func : Plugin -> Plugin) (F : Factory) :
  decorator_process_data (lower mode) func F
  = decorator_process_data mode func F
  /\ (decorator_process_data mode func F = None
      <-> lower mode ∉ ["batch"; "stream"; "source"]).
Proof.
  split.
  - unfold decorator_process_data. by rewrite lower_idempotent.
  - unfold decorator_process_data.
    rewrite !not_elem_of_cons.
    repeat case_bool_decide;
      (split; [intros Hnone | intros (Hb & Hs & Ho & _)]);
      try discriminate; try done.
    repeat split; try done. apply not_elem_of_nil.
Qed.

(** X17.  Registrations overwrite slots and nothing else.  Decorating a
    second function in the same mode replaces the first; batch mode
    after stream mode replaces it entirely; stream mode after batch mode
    leaves the batch close strategy installed.  The metadata function is
    looked up when a strategy runs, so registering it before or after
    [process_data] gives the same plugin. *)
Theorem process_data_registrations_compose
    (mode : Mode) (f g : Plugin -> Plugin) (h : Hook) (F : Factory) :
  process_data mode f (process_data mode g F) = process_data mode f F
  /\ process_data Batch f (process_data Stream g F) = process_data Batch f F
  /\ ii_close_func (process_data Stream g (process_data Batch f F))
     = ii_close_func (process_data Batch f F)
  /\ set_build_metadata h (process_data mode f F)
     = process_data mode f (set_build_metadata h F).
Proof. destruct mode; repeat split; reflexivity. Qed.

(** ** Closing an interface again *)

(** X18.  [ii_close] has no guard against repetition.  In batch mode, on
    an initialized plugin outside update-only mode whose inputs are all
    completed already, every further [ii_close], on any interface, runs
    the whole firing sequence again: the metadata function, the
    decorated function on the same buffers, metadata to every output
    anchor, the flush. *)
Theorem batch_close_again_fires_again
    (U : UserCode) (p : Plugin) (i : nat) :
  initialized p = true ->
  update_only_mode p = false ->
  all_inputs_completed p = true ->
  let F := user_factory U Batch in
  trace (ii_close F p i)
  = trace p ++ [EvBuildMetadata; EvProcessData (input_view p)]
    ++ metadata_pushes (output_anchors p) ++ [EvPushAllOutputRecords]
  /\ input_view (ii_close F p i) = input_view p
  /\ all_inputs_completed (ii_close F p i) = true.
Proof.
  intros Hinit Huom Hall F. subst F.
  assert (Hall' : all_inputs_completed (on_interface (set_completed true) i p)
                  = true).
  { unfold all_inputs_completed in *. simpl.
    by apply forallb_completed_alter_true. }
  unfold ii_close, wrap_ii_close. rewrite Huom. simpl.
  rewrite batch_ii_close_fires by done.
  rewrite firing_events_set_completed. unfold firing_events. rewrite Huom.
  simpl. split; [done|]. split; [|done].
  unfold input_view. simpl. apply input_view_alter_completed.
Qed.

Lemma batch_close_again_fires_again_witness :
  let F := user_factory agreeable Batch in
  let p := run sample_parse F (new_plugin false ["A"; "B"] ["Output"])
             (setup_two_inputs
              ++ [CallIiPushRecord 0 "a1"; CallIiClose 0; CallIiClose 1]) in
  count_events is_process_data p = 1
  /\ trace (ii_close F p 1)
     = trace p ++ [EvBuildMetadata; EvProcessData [("A", ["a1"]); ("B", [])];
                   EvPushMetadata "Output"; EvPushAllOutputRecords].
Proof.
  split; [reflexivity|].
  apply (batch_close_again_fires_again agreeable
           (run sample_parse (user_factory agreeable Batch)
              (new_plugin false ["A"; "B"] ["Output"])
              (setup_two_inputs
               ++ [CallIiPushRecord 0 "a1"; CallIiClose 0; CallIiClose 1]))
           1 eq_refl eq_refl eq_refl).
Defined.
